(** * GitHub Issues API wrapper: a shallow embedding of [main.py]

    The service is a FastAPI application in front of the GitHub issues
    API.  Its handlers are embedded as computations in a state and
    exception monad over the world of the process: the event store and the
    trace of what a handler did besides answering (an HMAC computed, an
    upstream round trip, a line printed).

    The Python library functions the handlers call are embedded from their
    published definitions: [hashlib.sha256] from FIPS 180-4, [hmac.new] from
    RFC 2104, [hmac.compare_digest], [dict.get], subscripting and slicing
    from the Python reference.  The JSON decoder, the upstream tracker and
    the configuration are the environment [env] of a run.

    Layout: bytes and the hash functions; Python values; outcomes, requests
    and the world; the monad; the handlers; a concrete deployment; then the
    lemmas, the statements C1 to C10, and their instances. *)

From Stdlib Require Import ZArith List String Ascii Bool Lia Arith DecimalString.
From Stdlib Require Import Strings.Byte.
Import ListNotations.
Set Warnings "-register-all".
Local Open Scope string_scope.
Local Open Scope list_scope.
Local Open Scope Z_scope.

(** ** Bytes and strings

    A Python [bytes] object is a list of bytes.  A Python [str] is modelled
    by the Rocq [string] holding its UTF-8 encoding, so that [str.encode()]
    is the plain conversion to a list of bytes, two [str] are equal exactly
    when their models are, and a [str] is ASCII-only exactly when every
    character of its model is below 128. *)

Definition bytes := list byte.

Definition byte_val (b : byte) : Z := Z.of_N (Byte.to_N b).

Definition byte_of_Z (z : Z) : byte :=
  match Byte.of_N (Z.to_N (z mod 256)) with
  | Some b => b
  | None => x00
  end.

Definition encode (s : string) : bytes := list_byte_of_string s.

(** Big-endian encoding of [v] on [n] bytes. *)
Fixpoint be_bytes (n : nat) (v : Z) : bytes :=
  match n with
  | O => []
  | S k => byte_of_Z (Z.shiftr v (8 * Z.of_nat k)) :: be_bytes k v
  end.

(** Big-endian decoding. *)
Definition be_value (bs : bytes) : Z :=
  fold_left (fun acc b => acc * 256 + byte_val b) bs 0.

Definition hex_digit (d : Z) : ascii :=
  if d <? 10 then ascii_of_nat (Z.to_nat (48 + d))
  else ascii_of_nat (Z.to_nat (87 + d)).

(** [bytes.hex()]: two lowercase hexadecimal digits per byte. *)
Fixpoint hex (bs : bytes) : string :=
  match bs with
  | [] => EmptyString
  | b :: r =>
      String (hex_digit (byte_val b / 16))
        (String (hex_digit (byte_val b mod 16)) (hex r))
  end.

(** ** SHA-256 (FIPS 180-4), as computed by [hashlib.sha256] *)

Module Sha256.

Definition wrap32 (x : Z) : Z := x mod 2 ^ 32.
Definition add32 (x y : Z) : Z := wrap32 (x + y).
Definition not32 (x : Z) : Z := Z.lxor x 0xffffffff.
Definition rotr (n x : Z) : Z :=
  Z.lor (Z.shiftr x n) (wrap32 (Z.shiftl x (32 - n))).

Definition Ch (x y z : Z) : Z :=
  Z.lxor (Z.land x y) (Z.land (not32 x) z).
Definition Maj (x y z : Z) : Z :=
  Z.lxor (Z.lxor (Z.land x y) (Z.land x z)) (Z.land y z).
Definition Sigma0 (x : Z) : Z :=
  Z.lxor (Z.lxor (rotr 2 x) (rotr 13 x)) (rotr 22 x).
Definition Sigma1 (x : Z) : Z :=
  Z.lxor (Z.lxor (rotr 6 x) (rotr 11 x)) (rotr 25 x).
Definition sigma0 (x : Z) : Z :=
  Z.lxor (Z.lxor (rotr 7 x) (rotr 18 x)) (Z.shiftr x 3).
Definition sigma1 (x : Z) : Z :=
  Z.lxor (Z.lxor (rotr 17 x) (rotr 19 x)) (Z.shiftr x 10).

(** The first 64 primes. *)
Definition is_prime (n : nat) : bool :=
  forallb (fun d => negb (Nat.eqb (n mod d) 0)) (seq 2 (n - 2)).

Definition primes : list Z := map Z.of_nat (filter is_prime (seq 2 310)).

(** The integer cube root, found bit by bit. *)
Definition cube_root (n : Z) : Z :=
  fold_left (fun r b => let c := r + 2 ^ Z.of_nat b in
                        if c * c * c <=? n then c else r)
            (rev (seq 0 40)) 0.

(** The round constants: the first 32 bits of the fractional parts of the
    cube roots of the first 64 primes. *)
Definition K : list Z :=
  Eval vm_compute in map (fun p => wrap32 (cube_root (p * 2 ^ 96))) primes.

(** The eight working variables, also the intermediate hash value. *)
Record state := mkState {
  ha : Z; hb : Z; hc : Z; hd : Z; he : Z; hf : Z; hg : Z; hh : Z
}.

(** The initial hash value: the first 32 bits of the fractional parts of
    the square roots of the first 8 primes. *)
Definition H0 : state :=
  Eval vm_compute in
    let h (i : nat) := wrap32 (Z.sqrt (nth i primes 0 * 2 ^ 64)) in
    mkState (h 0%nat) (h 1%nat) (h 2%nat) (h 3%nat)
            (h 4%nat) (h 5%nat) (h 6%nat) (h 7%nat).

(** Padding: a one bit, zeros up to 56 modulo 64, the length in bits on 64 bits. *)
Definition pad (m : bytes) : bytes :=
  let len := Z.of_nat (List.length m) in
  m ++ [x80] ++ repeat x00 (Z.to_nat ((55 - len) mod 64))
    ++ be_bytes 8 ((8 * len) mod 2 ^ 64).

(** The padded message cut in consecutive groups of [n] bytes. *)
Fixpoint chunks (fuel n : nat) (bs : bytes) : list bytes :=
  match fuel, bs with
  | O, _ => []
  | _, [] => []
  | S f, _ => firstn n bs :: chunks f n (skipn n bs)
  end.

Definition blocks (bs : bytes) : list bytes := chunks (List.length bs) 64 bs.

Definition words_of_block (b : bytes) : list Z :=
  map be_value (chunks 16 4 b).

(** The message schedule: sixteen words of the block, extended to 64. *)
Definition schedule_step (w : list Z) (t : nat) : list Z :=
  let g i := nth (t - i) w 0 in
  w ++ [add32 (add32 (add32 (sigma1 (g 2%nat)) (g 7%nat)) (sigma0 (g 15%nat)))
          (g 16%nat)].

Definition schedule (b : bytes) : list Z :=
  fold_left schedule_step (seq 16 48) (words_of_block b).

Definition round (s : state) (kw : Z * Z) : state :=
  let (k, w) := kw in
  let t1 := add32 (add32 (add32 (add32 (hh s) (Sigma1 (he s)))
                                (Ch (he s) (hf s) (hg s))) k) w in
  let t2 := add32 (Sigma0 (ha s)) (Maj (ha s) (hb s) (hc s)) in
  mkState (add32 t1 t2) (ha s) (hb s) (hc s)
          (add32 (hd s) t1) (he s) (hf s) (hg s).

Definition compress (h : state) (b : bytes) : state :=
  let s := fold_left round (combine K (schedule b)) h in
  mkState (add32 (ha h) (ha s)) (add32 (hb h) (hb s))
          (add32 (hc h) (hc s)) (add32 (hd h) (hd s))
          (add32 (he h) (he s)) (add32 (hf h) (hf s))
          (add32 (hg h) (hg s)) (add32 (hh h) (hh s)).

Definition final_state (m : bytes) : state :=
  fold_left compress (blocks (pad m)) H0.

Definition state_bytes (s : state) : bytes :=
  be_bytes 4 (ha s) ++ be_bytes 4 (hb s) ++ be_bytes 4 (hc s)
    ++ be_bytes 4 (hd s) ++ be_bytes 4 (he s) ++ be_bytes 4 (hf s)
    ++ be_bytes 4 (hg s) ++ be_bytes 4 (hh s).

(** [hashlib.sha256(m).digest()] *)
Definition digest (m : bytes) : bytes := state_bytes (final_state m).

(** Words are 32-bit numbers. *)
Definition word_ok (x : Z) : Prop := 0 <= x < 2 ^ 32.

Definition bounded (s : state) : Prop :=
  word_ok (ha s) /\ word_ok (hb s) /\ word_ok (hc s) /\ word_ok (hd s) /\
  word_ok (he s) /\ word_ok (hf s) /\ word_ok (hg s) /\ word_ok (hh s).

(** The state read as one number of 256 bits. *)
Definition pack (s : state) : Z :=
  ((((((ha s * 2 ^ 32 + hb s) * 2 ^ 32 + hc s) * 2 ^ 32 + hd s) * 2 ^ 32
      + he s) * 2 ^ 32 + hf s) * 2 ^ 32 + hg s) * 2 ^ 32 + hh s.

End Sha256.

(** ** HMAC (RFC 2104) with SHA-256, as computed by [hmac.new(key, msg, hashlib.sha256)] *)

Module Hmac.

Definition block_size : nat := 64.

Definition xor_byte (c : Z) (b : byte) : byte :=
  byte_of_Z (Z.lxor c (byte_val b)).

Definition block_key (key : bytes) : bytes :=
  let k := if (block_size <? List.length key)%nat then Sha256.digest key else key in
  k ++ repeat x00 (block_size - List.length k).

(** The input of the outer hash. *)
Definition outer_input (key msg : bytes) : bytes :=
  let k := block_key key in
  map (xor_byte 0x5c) k ++ Sha256.digest (map (xor_byte 0x36) k ++ msg).

Definition digest (key msg : bytes) : bytes :=
  Sha256.digest (outer_input key msg).

(** [hmac.new(key, msg, hashlib.sha256).hexdigest()] *)
Definition hexdigest (key msg : bytes) : string := hex (digest key msg).

End Hmac.

(** ** Python values

    [json.loads] yields [None], booleans, integers, floats, strings, lists
    and dictionaries.  A dictionary is kept as the list of its items, keys
    pairwise distinct, in insertion order; a float is kept as its literal,
    no claim computes with one. *)

Inductive json : Type :=
| JNull
| JBool (b : bool)
| JInt (n : Z)
| JFloat (literal : string)
| JStr (s : string)
| JArr (items : list json)
| JObj (fields : list (string * json)).

Infix "+++" := String.append (right associativity, at level 60).

Fixpoint lookup {A : Type} (k : string) (d : list (string * A)) : option A :=
  match d with
  | [] => None
  | (k', v) :: r => if String.eqb k' k then Some v else lookup k r
  end.

Definition json_of_option (o : option string) : json :=
  match o with
  | Some s => JStr s
  | None => JNull
  end.

(** [str(n)] for an integer. *)
Definition decimal (n : Z) : string := NilEmpty.string_of_int (Z.to_int n).

(** [str(c) for c in s]. *)
Fixpoint chars (s : string) : list json :=
  match s with
  | EmptyString => []
  | String c r => JStr (String c EmptyString) :: chars r
  end.

Definition is_ascii (s : string) : bool :=
  forallb (fun b => byte_val b <? 128) (encode s).

(** [l[start:]] for a Python list. *)
Definition slice_from {A : Type} (start : Z) (l : list A) : list A :=
  let len := Z.of_nat (List.length l) in
  let lower := if start <? 0 then Z.max (start + len) 0 else Z.min start len in
  skipn (Z.to_nat lower) l.

(** ** Outcomes of a handler

    A handler returns a value, raises an [HTTPException], which FastAPI turns
    into a response with that status, or raises another exception, which
    the server answers with status 500. *)

Inductive py_exn : Type :=
| AttributeError
| KeyError
| TypeError
| JSONDecodeError
| UnicodeEncodeError.

Inductive outcome (A : Type) : Type :=
| Returned (a : A)
| HTTPException (status_code : Z) (detail : string)
| Raised (e : py_exn).

Arguments Returned {A} a.
Arguments HTTPException {A} status_code detail.
Arguments Raised {A} e.

(** ** Requests, responses and the world *)

Module IssueCreate.
Record t := mk {
  title : string;
  body : option string;
  labels : option (list string)
}.
End IssueCreate.

(** A field of an [IssueUpdate] is unset ([None]) or set to a string or
    to null ([Some]); [dict(exclude_unset=True)] keeps the set ones. *)
Module IssueUpdate.
Record t := mk {
  title : option (option string);
  body : option (option string);
  state : option (option string)
}.
End IssueUpdate.

(** The call handed to [httpx.AsyncClient] and the response [r] it gives. *)
Module Upstream.
Record request := mk_request {
  method : string;
  url : string;
  headers : list (string * string);
  payload : json
}.
Record response := mk_response {
  status_code : Z;
  text : string
}.
End Upstream.

(** The local response: status, headers set by the handler, JSON content. *)
Module Response.
Record t := mk {
  status_code : Z;
  headers : list (string * string);
  content : option json
}.
End Response.

(** A POST /webhook request: raw body and the three headers read. *)
Module Webhook.
Record request := mk {
  body : bytes;
  x_hub_signature_256 : option string;
  x_github_event : option string;
  x_github_delivery : option string
}.
End Webhook.

(** An entry of [events_store]. *)
Module Event.
Record t := mk {
  id : option string;
  event : option string;
  action : json;
  issue_number : json;
  timestamp : json
}.
End Event.

(** What a handler does besides answering. *)
Inductive effect : Type :=
| HmacComputed (key msg : bytes)
| UpstreamCalled (r : Upstream.request)
| Printed (e : Event.t).

Record world := mkWorld {
  events_store : list Event.t;
  effects : list effect
}.

(** The environment of the process: configuration read by [os.getenv],
    the JSON decoder ([None] when it raises), the upstream tracker, and
    [str()] of the values whose text no handler inspects. *)
Record env := mkEnv {
  GITHUB_TOKEN : option string;
  GITHUB_OWNER : option string;
  GITHUB_REPO : option string;
  WEBHOOK_SECRET : option string;
  json_loads : bytes -> option json;
  upstream : Upstream.request -> Upstream.response;
  repr : json -> string
}.

(** ** The handler monad: state and exceptions *)

Definition M (A : Type) : Type := world -> outcome A * world.

Definition ret {A : Type} (a : A) : M A := fun w => (Returned a, w).

Definition bind {A B : Type} (m : M A) (k : A -> M B) : M B :=
  fun w =>
    match m w with
    | (Returned a, w') => k a w'
    | (HTTPException s d, w') => (HTTPException s d, w')
    | (Raised e, w') => (Raised e, w')
    end.

Notation "x <- m ;; k" := (bind m (fun x => k))
  (at level 100, m at next level, right associativity).
Notation "m ;;; k" := (bind m (fun _ => k))
  (at level 100, right associativity).

Definition raise {A : Type} (e : py_exn) : M A := fun w => (Raised e, w).

Definition raise_http {A : Type} (status_code : Z) (detail : string) : M A :=
  fun w => (HTTPException status_code detail, w).

Definition perform (e : effect) : M unit :=
  fun w => (Returned tt, mkWorld (events_store w) (effects w ++ [e])).

Definition read_store : M (list Event.t) :=
  fun w => (Returned (events_store w), w).

(** [events_store.append(r)] *)
Definition append_event (r : Event.t) : M unit :=
  fun w => (Returned tt, mkWorld (events_store w ++ [r]) (effects w)).

Definition of_option {A : Type} (e : py_exn) (o : option A) : M A :=
  match o with
  | Some a => ret a
  | None => raise e
  end.

(** The status the client reads. *)
Definition status_of (o : outcome Response.t) : Z :=
  match o with
  | Returned r => Response.status_code r
  | HTTPException s _ => s
  | Raised _ => 500
  end.

(** ** Operations on Python values that may raise *)

(** [v[k]] for a string key. *)
Definition getitem (v : json) (k : string) : M json :=
  match v with
  | JObj d => of_option KeyError (lookup k d)
  | _ => raise TypeError
  end.

(** [v.get(k, default)] *)
Definition get (v : json) (k : string) (default : json) : M json :=
  match v with
  | JObj d =>
      ret (match lookup k d with
           | Some x => x
           | None => default
           end)
  | _ => raise AttributeError
  end.

(** The items a [for] loop over [v] visits. *)
Definition iterate (v : json) : M (list json) :=
  match v with
  | JArr l => ret l
  | JObj d => ret (map (fun kv => JStr (fst kv)) d)
  | JStr s => ret (chars s)
  | _ => raise TypeError
  end.

Fixpoint for_each {A B : Type} (f : A -> M B) (l : list A) : M (list B) :=
  match l with
  | [] => ret []
  | a :: r => b <- f a ;; bs <- for_each f r ;; ret (b :: bs)
  end.

(** [hmac.compare_digest(a, b)] on two [str]: both must be ASCII. *)
Definition compare_digest (a b : string) : M bool :=
  if is_ascii a && is_ascii b then ret (String.eqb a b) else raise TypeError.

(** A value is accepted in [response.headers[k] = value] when it encodes
    in Latin-1, that is, when it has no character above U+00FF: in the
    UTF-8 text of the value, no byte from 0xC4 on. *)
Definition latin1_encodable (s : string) : bool :=
  forallb (fun b => byte_val b <? 0xC4) (encode s).

(** [response.headers[k] = value], for a header not yet set. *)
Definition set_header (headers : list (string * string)) (k value : string)
  : M (list (string * string)) :=
  if latin1_encodable value then ret (headers ++ [(k, value)])
  else raise UnicodeEncodeError.

(** The value in an f-string, for a configuration variable. *)
Definition show (o : option string) : string :=
  match o with
  | Some s => s
  | None => "None"
  end.

(** ** The handlers of [main.py] *)

Section Handlers.

Variable E : env.

Definition HEADERS : list (string * string) :=
  [ ("Authorization", "Bearer " +++ show (GITHUB_TOKEN E));
    ("Accept", "application/vnd.github+json") ].

Definition issues_url : string :=
  "https://api.github.com/repos/" +++ show (GITHUB_OWNER E) +++ "/"
    +++ show (GITHUB_REPO E) +++ "/issues".

(** [str(v)], the text an f-string inserts. *)
Definition str (v : json) : string :=
  match v with
  | JNull => "None"
  | JBool true => "True"
  | JBool false => "False"
  | JInt n => decimal n
  | JStr s => s
  | _ => repr E v
  end.

(** One round trip to the upstream tracker. *)
Definition call_upstream (method url : string) (payload : json)
  : M Upstream.response :=
  let request := Upstream.mk_request method url HEADERS payload in
  perform (UpstreamCalled request) ;;;
  ret (upstream E request).

(** [r.json()] *)
Definition response_json (r : Upstream.response) : M json :=
  of_option JSONDecodeError (json_loads E (encode (Upstream.text r))).

Definition extract_labels (issue_data : json) : M (list json) :=
  labels <- get issue_data "labels" (JArr []) ;;
  items <- iterate labels ;;
  for_each (fun label => getitem label "name") items.

(** The body of the upstream call of [create_issue]; the labels are
    [issue.labels or []]. *)
Definition create_payload (issue : IssueCreate.t) : json :=
  JObj [ ("title", JStr (IssueCreate.title issue));
         ("body", json_of_option (IssueCreate.body issue));
         ("labels",
           JArr (map JStr (match IssueCreate.labels issue with
                           | Some (x :: l) => x :: l
                           | _ => []
                           end))) ].

(** POST /issues *)
Definition create_issue (issue : IssueCreate.t) : M Response.t :=
  let payload := create_payload issue in
  r <- call_upstream "POST" issues_url payload ;;
  if Upstream.status_code r =? 201 then
    data <- response_json r ;;
    location <- getitem data "number" ;;
    headers <- set_header [] "Location" ("/issues/" +++ str location) ;;
    number <- getitem data "number" ;;
    title <- getitem data "title" ;;
    body <- get data "body" JNull ;;
    state <- getitem data "state" ;;
    labels <- extract_labels data ;;
    html_url <- getitem data "html_url" ;;
    created_at <- getitem data "created_at" ;;
    updated_at <- getitem data "updated_at" ;;
    ret (Response.mk 201 headers
           (Some (JObj [ ("number", number);
                         ("title", title);
                         ("body", body);
                         ("state", state);
                         ("labels", JArr labels);
                         ("html_url", html_url);
                         ("created_at", created_at);
                         ("updated_at", updated_at) ])))
  else if Upstream.status_code r =? 401 then
    raise_http 401 "Unauthorized"
  else
    raise_http 400 (Upstream.text r).

(** [issue.dict(exclude_unset=True)] *)
Definition dict_exclude_unset (issue : IssueUpdate.t)
  : list (string * option string) :=
  let field (k : string) (v : option (option string)) :=
    match v with
    | Some x => [(k, x)]
    | None => []
    end in
  field "title" (IssueUpdate.title issue)
    ++ field "body" (IssueUpdate.body issue)
    ++ field "state" (IssueUpdate.state issue).

(** [v in l] for a value that is a string or [None] and a list of strings. *)
Definition member (v : option string) (l : list string) : bool :=
  match v with
  | Some s => existsb (String.eqb s) l
  | None => false
  end.

(** PATCH /issues/{number} *)
Definition update_issue (number : Z) (issue : IssueUpdate.t) : M Response.t :=
  let url := issues_url +++ "/" +++ decimal number in
  let update_payload := dict_exclude_unset issue in
  if match lookup "state" update_payload with
     | Some v => negb (member v ["open"; "closed"])
     | None => false
     end
  then raise_http 400 "state must be 'open' or 'closed'"
  else
    r <- call_upstream "PATCH" url
           (JObj (map (fun kv => (fst kv, json_of_option (snd kv)))
                      update_payload)) ;;
    if Upstream.status_code r =? 200 then
      data <- response_json r ;;
      ret (Response.mk 200 [] (Some data))
    else if Upstream.status_code r =? 404 then
      raise_http 404 "Issue not found"
    else
      raise_http (Upstream.status_code r) (Upstream.text r).

(** [hmac.new(key, msg, hashlib.sha256).hexdigest()], recorded. *)
Definition hmac_hexdigest (key msg : bytes) : M string :=
  perform (HmacComputed key msg) ;;;
  ret (Hmac.hexdigest key msg).

Definition verify_signature (signature : option string) (body : bytes)
  : M bool :=
  match signature with
  | None => ret false
  | Some EmptyString => ret false
  | Some claimed =>
      secret <- of_option AttributeError (WEBHOOK_SECRET E) ;;
      computed <- hmac_hexdigest (encode secret) body ;;
      compare_digest ("sha256=" +++ computed) claimed
  end.

Definition option_eqb (a b : option string) : bool :=
  match a, b with
  | Some x, Some y => String.eqb x y
  | None, None => true
  | _, _ => false
  end.

Definition no_content : Response.t := Response.mk 204 [] None.

(** POST /webhook *)
Definition webhook_handler (request : Webhook.request) : M Response.t :=
  let x_hub_signature_256 := Webhook.x_hub_signature_256 request in
  let x_github_event := Webhook.x_github_event request in
  let x_github_delivery := Webhook.x_github_delivery request in
  let body := Webhook.body request in
  verified <- verify_signature x_hub_signature_256 body ;;
  if negb verified then raise_http 401 "Invalid signature"
  else if negb (member x_github_event ["issues"; "issue_comment"; "ping"])
  then raise_http 400 "Unsupported event"
  else
    payload <- of_option JSONDecodeError (json_loads E body) ;;
    store <- read_store ;;
    if existsb (fun e => option_eqb (Event.id e) x_github_delivery) store
    then ret no_content
    else
      action <- get payload "action" JNull ;;
      issue <- get payload "issue" (JObj []) ;;
      issue_number <- get issue "number" JNull ;;
      repository <- get payload "repository" (JObj []) ;;
      timestamp <- get repository "updated_at" JNull ;;
      let event_record :=
        Event.mk x_github_delivery x_github_event action issue_number
                 timestamp in
      append_event event_record ;;;
      perform (Printed event_record) ;;;
      ret no_content.

(** GET /events; [limit] is the query parameter, 10 when absent. *)
Definition get_events (limit : option Z) : M (list Event.t) :=
  let limit := match limit with Some n => n | None => 10 end in
  store <- read_store ;;
  ret (slice_from (- limit) store).

(** The signature the sender attaches to [payload] under [secret]: the
    string [verify_signature] rebuilds and compares with. *)
Definition sign (payload : bytes) (secret : string) : string :=
  "sha256=" +++ Hmac.hexdigest (encode secret) payload.

End Handlers.

(** A run of POST /webhook requests, the statuses answered in order. *)
Fixpoint serve (E : env) (requests : list Webhook.request) (w : world)
  : list Z * world :=
  match requests with
  | [] => ([], w)
  | r :: rest =>
      let (o, w') := webhook_handler E r w in
      let (statuses, w'') := serve E rest w' in
      (status_of o :: statuses, w'')
  end.

Definition initial : world := mkWorld [] [].

(** ** A deployment and some requests, for the examples *)

(** The double quote. *)
Definition dq : string := String "034"%char EmptyString.

Definition quoted (s : string) : string := dq +++ s +++ dq.

(** The text of an issue as the upstream tracker sends it. *)
Definition issue_text : string :=
  "{" +++ quoted "number" +++ ":42,"
    +++ quoted "title" +++ ":" +++ quoted "bug" +++ ","
    +++ quoted "state" +++ ":" +++ quoted "open" +++ ","
    +++ quoted "labels" +++ ":[{" +++ quoted "name" +++ ":"
    +++ quoted "defect" +++ "}],"
    +++ quoted "html_url" +++ ":"
    +++ quoted "https://github.com/octocat/hello/issues/42" +++ ","
    +++ quoted "created_at" +++ ":" +++ quoted "2024-05-01T10:00:00Z" +++ ","
    +++ quoted "updated_at" +++ ":" +++ quoted "2024-05-01T10:00:00Z" +++ "}".

(** The value [json.loads] gives for [issue_text]. *)
Definition issue_fields : list (string * json) :=
  [ ("number", JInt 42);
    ("title", JStr "bug");
    ("state", JStr "open");
    ("labels", JArr [JObj [("name", JStr "defect")]]);
    ("html_url", JStr "https://github.com/octocat/hello/issues/42");
    ("created_at", JStr "2024-05-01T10:00:00Z");
    ("updated_at", JStr "2024-05-01T10:00:00Z") ].

Definition issue_value : json := JObj issue_fields.

(** [json.loads] on the documents the examples use; other texts are not
    decoded. *)
Definition loads (b : bytes) : option json :=
  let text := string_of_list_byte b in
  if String.eqb text "{}" then Some (JObj [])
  else if String.eqb text issue_text then Some issue_value
  else None.

(** A configured process whose upstream tracker gives [answer]. *)
Definition deployment (answer : Upstream.response) : env :=
  mkEnv (Some "token") (Some "octocat") (Some "hello") (Some "secret")
        loads (fun _ => answer) (fun _ => EmptyString).

Definition quiet : env := deployment (Upstream.mk_response 200 "{}").

Definition bug : IssueCreate.t := IssueCreate.mk "bug" None (Some []).

(** A signed ping with delivery id [abc123]. *)
Definition ping : Webhook.request :=
  Webhook.mk (encode "{}") (Some (sign (encode "{}") "secret"))
             (Some "ping") (Some "abc123").

(** The same without the X-Github-Delivery header. *)
Definition anonymous_ping : Webhook.request :=
  Webhook.mk (encode "{}") (Some (sign (encode "{}") "secret"))
             (Some "ping") None.

(** A signed event of a type outside the allow-list. *)
Definition push : Webhook.request :=
  Webhook.mk (encode "{}") (Some (sign (encode "{}") "secret"))
             (Some "push") (Some "abc124").

(** An event whose signature was made over another body; its type is
    outside the allow-list as well. *)
Definition tampered : Webhook.request :=
  Webhook.mk (encode "{}") (Some (sign (encode issue_text) "secret"))
             (Some "push") (Some "abc125").

(** An event without the X-Hub-Signature-256 header. *)
Definition unsigned : Webhook.request :=
  Webhook.mk (encode "{}") None (Some "ping") (Some "abc126").

(** PATCH /issues/5 with the state [archived]. *)
Definition archive : IssueUpdate.t :=
  IssueUpdate.mk None None (Some (Some "archived")).

(** An event whose X-Hub-Signature-256 header is [sha256=] followed by
    the letter e with an acute accent, U+00E9: the bytes 195 and 169 in
    UTF-8. *)
Definition garbled : Webhook.request :=
  Webhook.mk (encode "{}")
             (Some ("sha256=" +++ String "195"%char
                                    (String "169"%char EmptyString)))
             (Some "ping") (Some "abc127").

Definition opened (id : string) : Event.t :=
  Event.mk (Some id) (Some "issues") (JStr "opened") (JInt 7) JNull.

(** ** Proof steps on handler runs *)

Ltac run :=
  repeat (progress
            (unfold bind, ret, raise, raise_http, read_store, append_event,
               perform, of_option in *;
             cbv beta iota zeta in *;
             cbn [fst snd events_store effects negb] in *)).

Ltac split_match :=
  match goal with
  | |- context [match ?x with _ => _ end] =>
      lazymatch x with
      | context [match _ with _ => _ end] => fail
      | _ => destruct x eqn:?
      end
  end.

(** ** Vocabulary of the statements *)

(** The tests the handler makes on the store and on the event type. *)
Local Abbreviation seen delivery store :=
  (existsb (fun e => option_eqb (Event.id e) delivery) store).

Local Abbreviation allowed event :=
  (member event ["issues"; "issue_comment"; "ping"]).

(** The delivery ids in the store, in arrival order. *)
Definition ids (w : world) : list (option string) :=
  map Event.id (events_store w).

(** The records a delivery id selects, as the duplicate test reads them. *)
Definition stored (d : option string) (w : world) : list Event.t :=
  filter (fun e => option_eqb (Event.id e) d) (events_store w).

(** An upstream label list whose entries are objects with a [name]. *)
Definition labelled (items names : list json) : Prop :=
  Forall2 (fun label name =>
             exists fields, label = JObj fields
                            /\ lookup "name" fields = Some name)
          items names.

(** ** The library functions on known inputs *)

Example sha256_abc :
  hex (Sha256.digest (encode "abc"))
  = "ba7816bf8f01cfea414140de5dae2223b00361a396177a9cb410ff61f20015ad".
Proof. vm_compute. reflexivity. Qed.

Example sha256_empty :
  hex (Sha256.digest [])
  = "e3b0c44298fc1c149afbf4c8996fb92427ae41e4649b934ca495991b7852b855".
Proof. vm_compute. reflexivity. Qed.

Example sha256_two_blocks :
  hex (Sha256.digest (repeat "a"%byte 100))
  = "2816597888e4a0d3a36b82b83316ab32680eb8f00f8cd3b904d681246d285a0e".
Proof. vm_compute. reflexivity. Qed.

Example hmac_rfc4231_case2 :
  Hmac.hexdigest (encode "Jefe") (encode "what do ya want for nothing?")
  = "5bdcc146bf60754e6a042426089575c75a003f089d2739839dec58b964ec3843".
Proof. vm_compute. reflexivity. Qed.

Example hmac_long_key :
  Hmac.hexdigest (repeat "k"%byte 100) (encode "hello")
  = "3fd578d761a4f6703009e92d2e8a0aea22ab9ab50d4ad250dc95d8c369dec3f5".
Proof. vm_compute. reflexivity. Qed.

(** The example of the GitHub webhook documentation. *)
Example sign_documented :
  sign (encode "Hello, World!") "It's a Secret to Everybody"
  = "sha256=757107ea0eb2509fc211221cce984b8a37570b6d7586c22c46f4379c8b043e17".
Proof. vm_compute. reflexivity. Qed.

Example slice_from_tail :
  slice_from (-2) [1; 2; 3] = [2; 3]
  /\ slice_from (-5) [1; 2; 3] = [1; 2; 3]
  /\ slice_from 0 [1; 2; 3] = [1; 2; 3]
  /\ slice_from 1 [1; 2; 3] = [2; 3]
  /\ slice_from 7 [1; 2; 3] = [].
Proof. repeat split. Qed.

(** A run of the service: a delivery, its redelivery, an unsupported
    event, a tampered one, an unsigned one and a garbled one. *)
Example serve_run :
  let run := serve quiet [ping; ping; push; tampered; unsigned; garbled]
               initial in
  fst run = [204; 204; 400; 401; 401; 500]
  /\ ids (snd run) = [Some "abc123"].
Proof. vm_compute. split; reflexivity. Qed.

(** ** The digest takes finitely many values *)

Module Sha256Facts.
Import Sha256.


Lemma add32_ok x y : word_ok (add32 x y).
Proof. unfold word_ok, add32, wrap32. apply Z.mod_pos_bound. lia. Qed.

Lemma H0_bounded : bounded H0.
Proof. unfold bounded, word_ok, H0; cbn [ha hb hc hd he hf hg hh]; lia. Qed.

Lemma compress_bounded h b : bounded (compress h b).
Proof.
  unfold compress, bounded; cbv zeta; cbn [ha hb hc hd he hf hg hh].
  repeat split; apply add32_ok.
Qed.

Lemma fold_compress_bounded bs :
  forall h, bounded h -> bounded (fold_left compress bs h).
Proof.
  induction bs as [|b bs IH]; intros h Hh; cbn [fold_left]; [exact Hh|].
  apply IH, compress_bounded.
Qed.

Lemma final_state_bounded m : bounded (final_state m).
Proof. apply fold_compress_bounded, H0_bounded. Qed.

Lemma digit_unique (a a' b b' : Z) :
  word_ok b -> word_ok b' ->
  a * 2 ^ 32 + b = a' * 2 ^ 32 + b' -> a = a' /\ b = b'.
Proof. unfold word_ok; intros Hb Hb' Heq. lia. Qed.

Lemma pack_injective s s' :
  bounded s -> bounded s' -> pack s = pack s' -> s = s'.
Proof.
  destruct s, s'; unfold bounded, pack; cbn [ha hb hc hd he hf hg hh].
  intros (?&?&?&?&?&?&?&?) (?&?&?&?&?&?&?&?) Heq.
  repeat match goal with
         | H : _ * 2 ^ 32 + _ = _ * 2 ^ 32 + _ |- _ =>
             apply digit_unique in H; [destruct H|assumption|assumption]
         end.
  subst; reflexivity.
Qed.

Lemma pack_range s : bounded s -> 0 <= pack s < 2 ^ 256.
Proof.
  destruct s; unfold bounded, pack, word_ok; cbn [ha hb hc hd he hf hg hh].
  intros (?&?&?&?&?&?&?&?). lia.
Qed.

End Sha256Facts.

(** ** Pigeonhole: more messages than digests *)

Lemma bounded_search (n : nat) (P : nat -> Prop) :
  (forall i, {P i} + {~ P i}) ->
  (exists i, (i < n)%nat /\ P i) \/ (forall i, (i < n)%nat -> ~ P i).
Proof.
  intros dec. induction n as [|n [(i & Hi & HP)|Hnone]].
  - right; intros i Hi; lia.
  - left; exists i; split; [lia|exact HP].
  - destruct (dec n) as [HP|HP].
    + left; exists n; split; [lia|exact HP].
    + right; intros i Hi.
      destruct (Nat.eq_dec i n) as [->|Hne]; [exact HP|apply Hnone; lia].
Qed.

Lemma pigeonhole_nat (n : nat) :
  forall f : nat -> nat,
    (forall i, (i <= n)%nat -> (f i < n)%nat) ->
    exists i j, (i < j <= n)%nat /\ f i = f j.
Proof.
  induction n as [|n IH]; intros f Hf.
  - specialize (Hf 0%nat (Nat.le_refl _)); lia.
  - destruct (bounded_search (S n) (fun i => f i = f (S n))
                (fun i => Nat.eq_dec (f i) (f (S n))))
      as [(i & Hi & Heq)|Hfresh].
    + exists i, (S n); split; [lia|exact Heq].
    + set (g := fun i => if (f i <? f (S n))%nat then f i else (f i - 1)%nat).
      destruct (IH g) as (i & j & Hij & Hg).
      * intros i Hi. unfold g.
        assert (f i <> f (S n)) by (apply Hfresh; lia).
        assert (f i < S n)%nat by (apply Hf; lia).
        assert (f (S n) < S n)%nat by (apply Hf; lia).
        destruct (Nat.ltb_spec (f i) (f (S n))); lia.
      * exists i, j; split; [lia|].
        assert (f i <> f (S n)) by (apply Hfresh; lia).
        assert (f j <> f (S n)) by (apply Hfresh; lia).
        unfold g in Hg.
        destruct (Nat.ltb_spec (f i) (f (S n)));
          destruct (Nat.ltb_spec (f j) (f (S n))); lia.
Qed.

Lemma pigeonhole_Z (B : Z) (f : nat -> Z) :
  (forall i, 0 <= f i < B) -> exists i j, i <> j /\ f i = f j.
Proof.
  intros Hf.
  destruct (pigeonhole_nat (Z.to_nat B) (fun i => Z.to_nat (f i)))
    as (i & j & Hij & Heq).
  - intros i _. specialize (Hf i). apply Z2Nat.inj_lt; lia.
  - exists i, j; split; [lia|].
    apply Z2Nat.inj; [apply Hf|apply Hf|exact Heq].
Qed.

(** Digests are fewer than messages: under every key two distinct messages
    have the same HMAC-SHA256.  Rejection of a payload is therefore stated
    on its digest. *)
Lemma hmac_collision (key : bytes) :
  exists m m', m <> m' /\ Hmac.hexdigest key m = Hmac.hexdigest key m'.
Proof.
  set (st := fun i => Sha256.final_state (Hmac.outer_input key (repeat x00 i))).
  destruct (pigeonhole_Z (2 ^ 256) (fun i => Sha256.pack (st i)))
    as (i & j & Hij & Heq).
  - intros i. apply Sha256Facts.pack_range, Sha256Facts.final_state_bounded.
  - exists (repeat x00 i), (repeat x00 j); split.
    + intros Hrep. apply Hij.
      rewrite <- (repeat_length x00 i), <- (repeat_length x00 j), Hrep.
      reflexivity.
    + apply Sha256Facts.pack_injective in Heq;
        try apply Sha256Facts.final_state_bounded.
      unfold Hmac.hexdigest, Hmac.digest, Sha256.digest.
      fold (st i); fold (st j). rewrite Heq. reflexivity.
Qed.

(** ** Strings *)

Lemma is_ascii_cons (c : ascii) (s : string) :
  is_ascii (String c s) = (byte_val (byte_of_ascii c) <? 128) && is_ascii s.
Proof. reflexivity. Qed.

Lemma is_ascii_append (a b : string) :
  is_ascii (a +++ b) = is_ascii a && is_ascii b.
Proof.
  induction a as [|c a IH]; [reflexivity|].
  cbn [String.append]. rewrite !is_ascii_cons, IH, andb_assoc. reflexivity.
Qed.

Lemma hex_digits_ascii (b : byte) :
  (byte_val (byte_of_ascii (hex_digit (byte_val b / 16))) <? 128)
  && (byte_val (byte_of_ascii (hex_digit (byte_val b mod 16))) <? 128) = true.
Proof. destruct b; vm_compute; reflexivity. Qed.

Lemma is_ascii_hex (bs : bytes) : is_ascii (hex bs) = true.
Proof.
  induction bs as [|b bs IH]; [reflexivity|].
  cbn [hex]. rewrite !is_ascii_cons, IH, andb_true_r.
  apply hex_digits_ascii.
Qed.

Lemma is_ascii_sign (P : bytes) (S : string) : is_ascii (sign P S) = true.
Proof.
  unfold sign, Hmac.hexdigest. rewrite is_ascii_append, is_ascii_hex.
  reflexivity.
Qed.


(** ** The webhook verifier *)


(** What [verify_signature] does, case by case. *)
Lemma verify_signature_eq (E : env) (signature : option string)
      (body : bytes) (w : world) :
  verify_signature E signature body w =
  match signature with
  | None => (Returned false, w)
  | Some EmptyString => (Returned false, w)
  | Some claimed =>
      match WEBHOOK_SECRET E with
      | None => (Raised AttributeError, w)
      | Some secret =>
          let w' := mkWorld (events_store w)
                      (effects w ++ [HmacComputed (encode secret) body]) in
          if is_ascii claimed
          then (Returned (String.eqb (sign body secret) claimed), w')
          else (Raised TypeError, w')
      end
  end.
Proof.
  destruct signature as [[|c s]|]; try reflexivity.
  unfold verify_signature, hmac_hexdigest, compare_digest. run.
  destruct (WEBHOOK_SECRET E) as [secret|]; [|reflexivity].
  run.
  change ("sha256=" +++ Hmac.hexdigest (encode secret) body)
    with (sign body secret).
  rewrite is_ascii_sign. cbn [andb].
  destruct (is_ascii (String c s)); reflexivity.
Qed.

Lemma verify_signature_store (E : env) (signature : option string)
      (body : bytes) (w : world) :
  events_store (snd (verify_signature E signature body w)) = events_store w.
Proof.
  rewrite verify_signature_eq.
  destruct signature as [[|c s]|]; try reflexivity.
  destruct (WEBHOOK_SECRET E); [|reflexivity].
  cbv zeta. destruct (is_ascii (String c s)); reflexivity.
Qed.

(** The verdict does not depend on the world it is computed in. *)
Lemma verify_signature_verdict (E : env) (signature : option string)
      (body : bytes) (w w' : world) :
  fst (verify_signature E signature body w)
  = fst (verify_signature E signature body w').
Proof.
  rewrite !verify_signature_eq.
  destruct signature as [[|c s]|]; try reflexivity.
  destruct (WEBHOOK_SECRET E); [|reflexivity].
  cbv zeta. destruct (is_ascii (String c s)); reflexivity.
Qed.

Lemma verify_signature_no_http (E : env) (signature : option string)
      (body : bytes) (w : world) (s : Z) (d : string) :
  fst (verify_signature E signature body w) <> HTTPException s d.
Proof.
  rewrite verify_signature_eq.
  destruct signature as [[|c t]|]; try (intros H; discriminate H).
  destruct (WEBHOOK_SECRET E); [|intros H; discriminate H].
  cbv zeta. destruct (is_ascii (String c t)); intros H; discriminate H.
Qed.



(** ** The webhook handler, step by step *)

Lemma get_run (v : json) (k : string) (default : json) (w : world) :
  get v k default w =
  (match v with
   | JObj d => Returned (match lookup k d with
                         | Some x => x
                         | None => default
                         end)
   | _ => Raised AttributeError
   end, w).
Proof. destruct v; reflexivity. Qed.

Lemma getitem_run (v : json) (k : string) (w : world) :
  getitem v k w =
  (match v with
   | JObj d => match lookup k d with
               | Some x => Returned x
               | None => Raised KeyError
               end
   | _ => Raised TypeError
   end, w).
Proof. destruct v; try reflexivity. cbn. destruct (lookup k fields); reflexivity. Qed.

Lemma iterate_run (v : json) (w : world) :
  iterate v w =
  (match v with
   | JArr l => Returned l
   | JObj d => Returned (map (fun kv => JStr (fst kv)) d)
   | JStr s => Returned (chars s)
   | _ => Raised TypeError
   end, w).
Proof. destruct v; reflexivity. Qed.



(** A request is rejected, or answered 204; the store is left as it was or
    receives one record carrying the delivery id, which was not there. *)
Lemma webhook_handler_store (E : env) (r : Webhook.request) (w : world) :
  events_store (snd (webhook_handler E r w)) = events_store w
  \/ (fst (webhook_handler E r w) = Returned no_content
      /\ seen (Webhook.x_github_delivery r) (events_store w) = false
      /\ exists record,
          Event.id record = Webhook.x_github_delivery r
          /\ events_store (snd (webhook_handler E r w))
             = events_store w ++ [record]).
Proof.
  pose proof (verify_signature_store E (Webhook.x_hub_signature_256 r)
                (Webhook.body r) w) as Hstore.
  unfold webhook_handler. run.
  destruct (verify_signature E (Webhook.x_hub_signature_256 r)
              (Webhook.body r) w) as [[[|]|s d|e] w1];
    run; try (left; exact Hstore).
  destruct (member (Webhook.x_github_event r) _);
    run; [|left; exact Hstore].
  destruct (json_loads E (Webhook.body r)) as [payload|];
    run; [|left; exact Hstore].
  rewrite Hstore.
  destruct (existsb _ (events_store w)) eqn:Hseen;
    run; [left; exact Hstore|].
  rewrite !get_run; run.
  repeat (split_match; rewrite ?get_run; run; try (left; exact Hstore)).
  all: right; split; [reflexivity|split; [reflexivity|]].
  all: eexists; split; [|rewrite Hstore; reflexivity]; reflexivity.
Qed.

Section WebhookSteps.

Variable E : env.
Variable r : Webhook.request.
Variable w : world.

Let verdict := verify_signature E (Webhook.x_hub_signature_256 r)
                 (Webhook.body r) w.

Ltac open_handler :=
  unfold webhook_handler in *; run;
  subst verdict;
  destruct (verify_signature E (Webhook.x_hub_signature_256 r)
              (Webhook.body r) w) as [verified w1];
  run; subst.

Lemma webhook_unverified :
  fst verdict = Returned false ->
  webhook_handler E r w = (HTTPException 401 "Invalid signature", snd verdict).
Proof. intros Hv. open_handler. reflexivity. Qed.

Lemma webhook_raised (e : py_exn) :
  fst verdict = Raised e ->
  webhook_handler E r w = (Raised e, snd verdict).
Proof. intros Hv. open_handler. reflexivity. Qed.

Lemma webhook_unsupported :
  fst verdict = Returned true ->
  allowed (Webhook.x_github_event r) = false ->
  webhook_handler E r w = (HTTPException 400 "Unsupported event", snd verdict).
Proof. intros Hv Hev. open_handler. rewrite Hev. reflexivity. Qed.

Lemma webhook_undecodable :
  fst verdict = Returned true ->
  allowed (Webhook.x_github_event r) = true ->
  json_loads E (Webhook.body r) = None ->
  webhook_handler E r w = (Raised JSONDecodeError, snd verdict).
Proof. intros Hv Hev Hjs. open_handler. rewrite Hev, Hjs. reflexivity. Qed.

Lemma webhook_duplicate (payload : json) :
  fst verdict = Returned true ->
  allowed (Webhook.x_github_event r) = true ->
  json_loads E (Webhook.body r) = Some payload ->
  seen (Webhook.x_github_delivery r) (events_store w) = true ->
  webhook_handler E r w = (Returned no_content, snd verdict).
Proof.
  intros Hv Hev Hjs Hseen.
  pose proof (verify_signature_store E (Webhook.x_hub_signature_256 r)
                (Webhook.body r) w) as Hstore.
  open_handler. rewrite Hev, Hjs. run. rewrite Hstore, Hseen. reflexivity.
Qed.

(** A new delivery whose payload is an object, its [issue] and
    [repository] entries absent or objects, is recorded. *)
Lemma webhook_fresh (d issue repository : list (string * json)) :
  fst verdict = Returned true ->
  allowed (Webhook.x_github_event r) = true ->
  json_loads E (Webhook.body r) = Some (JObj d) ->
  seen (Webhook.x_github_delivery r) (events_store w) = false ->
  match lookup "issue" d with Some x => x | None => JObj [] end
  = JObj issue ->
  match lookup "repository" d with Some x => x | None => JObj [] end
  = JObj repository ->
  let record :=
    Event.mk (Webhook.x_github_delivery r) (Webhook.x_github_event r)
      (match lookup "action" d with Some x => x | None => JNull end)
      (match lookup "number" issue with Some x => x | None => JNull end)
      (match lookup "updated_at" repository with
       | Some x => x
       | None => JNull
       end) in
  webhook_handler E r w
  = (Returned no_content,
     mkWorld (events_store w ++ [record])
             (effects (snd verdict) ++ [Printed record])).
Proof.
  intros Hv Hev Hjs Hseen Hissue Hrepo record.
  pose proof (verify_signature_store E (Webhook.x_hub_signature_256 r)
                (Webhook.body r) w) as Hstore.
  open_handler. rewrite Hev, Hjs. run. rewrite Hstore, Hseen.
  rewrite ?get_run. run. rewrite Hissue. run.
  rewrite ?get_run. run. rewrite ?Hrepo. run.
  rewrite ?get_run. run. rewrite ?Hstore. reflexivity.
Qed.

(** Only a verified request of an allowed type with a decodable body is
    answered 204. *)
Lemma webhook_accepted :
  status_of (fst (webhook_handler E r w)) = 204 ->
  fst verdict = Returned true
  /\ allowed (Webhook.x_github_event r) = true
  /\ exists payload, json_loads E (Webhook.body r) = Some payload.
Proof.
  pose proof (verify_signature_no_http E (Webhook.x_hub_signature_256 r)
                (Webhook.body r) w) as Hno.
  open_handler. destruct verified as [[|]|s d|e]; run;
    try (intros H; discriminate H);
    try (intros _; exfalso; apply (Hno s d); reflexivity).
  destruct (member (Webhook.x_github_event r) _); run;
    try (intros H; discriminate H).
  destruct (json_loads E (Webhook.body r)) as [payload|]; run;
    try (intros H; discriminate H).
  intros _. split; [reflexivity|split; [reflexivity|]].
  exists payload; reflexivity.
Qed.

End WebhookSteps.

Lemma option_eqb_eq (a b : option string) : option_eqb a b = true <-> a = b.
Proof.
  destruct a as [x|], b as [y|]; cbn; try (split; intros H; discriminate H);
    [|split; reflexivity].
  rewrite String.eqb_eq. split; [intros ->; reflexivity|intros [= ->]; reflexivity].
Qed.

Lemma seen_In (delivery : option string) (store : list Event.t) :
  seen delivery store = true <-> In delivery (map Event.id store).
Proof.
  rewrite existsb_exists, in_map_iff. split.
  - intros (e & He & Heq). apply option_eqb_eq in Heq. exists e; auto.
  - intros (e & Heq & He). exists e; split; [exact He|].
    apply option_eqb_eq; exact Heq.
Qed.

Lemma not_seen_In (delivery : option string) (store : list Event.t) :
  seen delivery store = false <-> ~ In delivery (map Event.id store).
Proof.
  rewrite <- seen_In. destruct (seen delivery store); split; intros H;
    try reflexivity; try discriminate H; try (intros H'; discriminate H').
  exfalso; apply H; reflexivity.
Qed.

(** C8: an absent or empty signature is refused at once.  The verifier
    answers [False] and leaves the world, its record of HMAC computations
    included, as it was, whatever the secret, even unset; the webhook
    request is answered 401. *)
Theorem absent_signature_rejected (E : env) (r : Webhook.request) (w : world) :
  Webhook.x_hub_signature_256 r = None
  \/ Webhook.x_hub_signature_256 r = Some EmptyString ->
  verify_signature E (Webhook.x_hub_signature_256 r) (Webhook.body r) w
  = (Returned false, w)
  /\ webhook_handler E r w = (HTTPException 401 "Invalid signature", w)
  /\ status_of (fst (webhook_handler E r w)) = 401.
Proof.
  intros Habsent.
  assert (Hv : verify_signature E (Webhook.x_hub_signature_256 r)
                 (Webhook.body r) w = (Returned false, w))
    by (destruct Habsent as [-> | ->]; reflexivity).
  assert (Hh : webhook_handler E r w
               = (HTTPException 401 "Invalid signature", w)).
  { rewrite webhook_unverified; rewrite Hv; reflexivity. }
  rewrite Hh. repeat split; assumption.
Qed.

(** C4: a verified request whose event type is outside the allow-list is
    answered 400 and appends nothing to the store. *)
Theorem unsupported_event_rejected (E : env) (r : Webhook.request) (w : world) :
  fst (verify_signature E (Webhook.x_hub_signature_256 r) (Webhook.body r) w)
  = Returned true ->
  member (Webhook.x_github_event r) ["issues"; "issue_comment"; "ping"]
  = false ->
  fst (webhook_handler E r w) = HTTPException 400 "Unsupported event"
  /\ status_of (fst (webhook_handler E r w)) = 400
  /\ events_store (snd (webhook_handler E r w)) = events_store w.
Proof.
  intros Hv Hev. rewrite (webhook_unsupported E r w Hv Hev). cbn [fst snd].
  repeat split. apply verify_signature_store.
Qed.

(** The signature is checked before the event type.  A request on which
    the verifier answers [False] is answered 401 whatever event type it
    declares, the store untouched; and a 400 is only ever answered to a
    request whose signature verified. *)
Theorem signature_checked_first (E : env) (r : Webhook.request) (w : world) :
  (fst (verify_signature E (Webhook.x_hub_signature_256 r) (Webhook.body r) w)
   = Returned false ->
   fst (webhook_handler E r w) = HTTPException 401 "Invalid signature"
   /\ status_of (fst (webhook_handler E r w)) = 401
   /\ events_store (snd (webhook_handler E r w)) = events_store w)
  /\ (status_of (fst (webhook_handler E r w)) = 400 ->
      fst (verify_signature E (Webhook.x_hub_signature_256 r)
             (Webhook.body r) w) = Returned true).
Proof.
  split.
  - intros Hv. rewrite (webhook_unverified E r w Hv). cbn [fst snd].
    repeat split. apply verify_signature_store.
  - pose proof (verify_signature_no_http E (Webhook.x_hub_signature_256 r)
                  (Webhook.body r) w) as Hno.
    unfold webhook_handler. run.
    destruct (verify_signature E (Webhook.x_hub_signature_256 r)
                (Webhook.body r) w) as [[[|]|s d|e] w1]; run;
      try (intros H; discriminate H);
      try (intros _; exfalso; apply (Hno s d); reflexivity).
    intros _; reflexivity.
Qed.

(** ** The store over a run of requests *)


Lemma webhook_handler_ids (E : env) (r : Webhook.request) (w : world) :
  ids (snd (webhook_handler E r w)) = ids w
  \/ (~ In (Webhook.x_github_delivery r) (ids w)
      /\ ids (snd (webhook_handler E r w))
         = ids w ++ [Webhook.x_github_delivery r]).
Proof.
  unfold ids.
  destruct (webhook_handler_store E r w)
    as [Hsame|(_ & Hnew & record & Hid & Happ)].
  - left. rewrite Hsame. reflexivity.
  - right. split; [apply not_seen_In; exact Hnew|].
    rewrite Happ, map_app. cbn [map]. rewrite Hid. reflexivity.
Qed.

Lemma webhook_handler_keeps (E : env) (r : Webhook.request) (w : world)
      (d : option string) :
  In d (ids w) -> In d (ids (snd (webhook_handler E r w))).
Proof.
  intros Hd. destruct (webhook_handler_ids E r w) as [->|(_ & ->)];
    [exact Hd|apply in_or_app; left; exact Hd].
Qed.

Lemma webhook_handler_NoDup (E : env) (r : Webhook.request) (w : world) :
  NoDup (ids w) -> NoDup (ids (snd (webhook_handler E r w))).
Proof.
  intros Hw. destruct (webhook_handler_ids E r w) as [->|(Hnew & ->)];
    [exact Hw|].
  apply NoDup_app; [exact Hw|repeat constructor; intros []|].
  intros x Hx [<-|[]]. exact (Hnew Hx).
Qed.

Lemma serve_cons (E : env) (r : Webhook.request) (rest : list Webhook.request)
      (w : world) :
  snd (serve E (r :: rest) w) = snd (serve E rest (snd (webhook_handler E r w))).
Proof.
  cbn [serve]. destruct (webhook_handler E r w) as [o w1]. cbn [snd].
  destruct (serve E rest w1); reflexivity.
Qed.

Lemma serve_keeps (E : env) (requests : list Webhook.request) :
  forall (w : world) (d : option string),
    In d (ids w) -> In d (ids (snd (serve E requests w))).
Proof.
  induction requests as [|r rest IH]; intros w d Hd; [exact Hd|].
  rewrite serve_cons. apply IH, webhook_handler_keeps, Hd.
Qed.

Lemma serve_NoDup (E : env) (requests : list Webhook.request) :
  forall w : world, NoDup (ids w) -> NoDup (ids (snd (serve E requests w))).
Proof.
  induction requests as [|r rest IH]; intros w Hw; [exact Hw|].
  rewrite serve_cons. apply IH, webhook_handler_NoDup, Hw.
Qed.


Lemma stored_once (d : option string) (w : world) :
  NoDup (ids w) -> In d (ids w) -> List.length (stored d w) = 1%nat.
Proof.
  unfold ids, stored. induction (events_store w) as [|e store IH];
    cbn [map filter]; intros Hnd Hin; [destruct Hin|].
  inversion Hnd as [|x l Hfresh Hrest]; subst.
  destruct (option_eqb (Event.id e) d) eqn:Heq.
  - apply option_eqb_eq in Heq. subst d. cbn [List.length]. f_equal.
    assert (Hnone : forall l, ~ In (Event.id e) (map Event.id l) ->
              filter (fun e0 => option_eqb (Event.id e0) (Event.id e)) l = []).
    { clear. induction l as [|a l IHl]; intros Hl; [reflexivity|].
      cbn [filter]. destruct (option_eqb (Event.id a) (Event.id e)) eqn:Ha.
      - apply option_eqb_eq in Ha. exfalso; apply Hl; left; exact Ha.
      - apply IHl. intros H; apply Hl; right; exact H. }
    rewrite (Hnone store Hfresh). reflexivity.
  - apply IH; [exact Hrest|].
    destruct Hin as [Hhead|Htail]; [|exact Htail].
    exfalso. apply option_eqb_eq in Hhead. rewrite Hhead in Heq.
    discriminate Heq.
Qed.

(** C1: the delivery ids in the store are pairwise distinct after any run
    of POST /webhook requests.  A request whose delivery id is already
    stored leaves the store as it is; when it is verified, of an allowed
    type and its body decodes, it is answered 204.  Hence, when a request
    is answered 204 and submitted again, at once or after other requests,
    the second submission is answered 204 too, changes nothing, and the
    store holds exactly one record with that delivery id. *)
Theorem delivery_ids_unique (E : env) (before between : list Webhook.request)
        (r : Webhook.request) :
  let verified w :=
    fst (verify_signature E (Webhook.x_hub_signature_256 r) (Webhook.body r) w)
    = Returned true in
  let w1 := snd (serve E before initial) in
  let first := webhook_handler E r w1 in
  let w2 := snd (serve E between (snd first)) in
  let second := webhook_handler E r w2 in
  NoDup (map Event.id (events_store w1))
  /\ (In (Webhook.x_github_delivery r) (map Event.id (events_store w1)) ->
      events_store (snd first) = events_store w1
      /\ (verified w1 ->
          member (Webhook.x_github_event r) ["issues"; "issue_comment"; "ping"]
          = true ->
          (exists payload, json_loads E (Webhook.body r) = Some payload) ->
          fst first = Returned no_content /\ status_of (fst first) = 204))
  /\ (status_of (fst first) = 204 ->
      status_of (fst second) = 204
      /\ events_store (snd second) = events_store w2
      /\ List.length (stored (Webhook.x_github_delivery r) (snd second))
         = 1%nat).
Proof.
  intros verified w1 first w2 second.
  assert (Hnd1 : NoDup (ids w1))
    by (apply serve_NoDup; constructor).
  assert (Hsame : forall w,
             In (Webhook.x_github_delivery r) (ids w) ->
             events_store (snd (webhook_handler E r w)) = events_store w).
  { intros w Hin.
    destruct (webhook_handler_store E r w) as [Hs|(_ & Hnew & _)];
      [exact Hs|].
    apply seen_In in Hin. rewrite Hin in Hnew. discriminate Hnew. }
  assert (Hdup : forall w,
             In (Webhook.x_github_delivery r) (ids w) ->
             verified w ->
             member (Webhook.x_github_event r)
               ["issues"; "issue_comment"; "ping"] = true ->
             (exists payload, json_loads E (Webhook.body r) = Some payload) ->
             fst (webhook_handler E r w) = Returned no_content
             /\ status_of (fst (webhook_handler E r w)) = 204).
  { intros w Hin Hv Hev (payload & Hjs).
    apply seen_In in Hin.
    rewrite (webhook_duplicate E r w payload Hv Hev Hjs Hin). cbn [fst snd].
    split; reflexivity. }
  split; [exact Hnd1|]. split.
  { intros Hin. split; [apply Hsame, Hin|apply Hdup, Hin]. }
  intros H204.
  destruct (webhook_accepted E r w1 H204) as (Hv & Hev & Hjs).
  assert (Hin1 : In (Webhook.x_github_delivery r) (ids (snd first))).
  { subst first.
    destruct (webhook_handler_store E r w1)
      as [Hkept|(_ & _ & record & Hid & Happ)].
    - destruct (existsb (fun e => option_eqb (Event.id e)
                                    (Webhook.x_github_delivery r))
                  (events_store w1)) eqn:Hseen.
      + apply seen_In in Hseen. unfold ids. rewrite Hkept. exact Hseen.
      + exfalso.
        destruct Hjs as (payload & Hjs).
        revert H204 Hkept. unfold webhook_handler. run.
        pose proof (verify_signature_store E (Webhook.x_hub_signature_256 r)
                      (Webhook.body r) w1) as Hstore.
        destruct (verify_signature E (Webhook.x_hub_signature_256 r)
                    (Webhook.body r) w1) as [o wv]. run. subst o. run.
        rewrite Hev, Hjs. run. rewrite Hstore, Hseen.
        rewrite ?get_run. run.
        repeat (split_match; rewrite ?get_run; run;
                try (intros H; discriminate H)).
        all: intros _ Hkept; rewrite Hstore in Hkept.
        all: apply (f_equal (@List.length _)) in Hkept.
        all: rewrite length_app in Hkept; cbn [List.length] in Hkept; lia.
    - unfold ids. rewrite Happ, map_app. apply in_or_app; right.
      cbn [map]. left. exact Hid. }
  assert (Hin2 : In (Webhook.x_github_delivery r) (ids w2))
    by (apply serve_keeps; exact Hin1).
  assert (Hv2 : verified w2).
  { unfold verified.
    rewrite (verify_signature_verdict E _ _ w2 w1). exact Hv. }
  destruct (Hdup w2 Hin2 Hv2 Hev Hjs) as (_ & Hst).
  split; [exact Hst|]. split; [apply Hsame, Hin2|].
  apply stored_once.
  - apply webhook_handler_NoDup, serve_NoDup, webhook_handler_NoDup, Hnd1.
  - apply webhook_handler_keeps, Hin2.
Qed.

(** C10: a verified request of an allowed type without an X-Github-Delivery
    header is accepted.  On a store with no null-id record, and with a
    payload that is an object whose [issue] and [repository] entries are
    absent or objects, it is answered 204 and appends a record whose id is
    null; every later request without the header, verified, of an allowed
    type and decodable, is answered 204 and appends nothing. *)
Theorem missing_delivery_id (E : env) (r : Webhook.request) (w : world)
        (d issue repository : list (string * json)) :
  Webhook.x_github_delivery r = None ->
  fst (verify_signature E (Webhook.x_hub_signature_256 r) (Webhook.body r) w)
  = Returned true ->
  member (Webhook.x_github_event r) ["issues"; "issue_comment"; "ping"]
  = true ->
  json_loads E (Webhook.body r) = Some (JObj d) ->
  match lookup "issue" d with Some x => x | None => JObj [] end = JObj issue ->
  match lookup "repository" d with Some x => x | None => JObj [] end
  = JObj repository ->
  ~ In None (map Event.id (events_store w)) ->
  exists record,
    Event.id record = None
    /\ fst (webhook_handler E r w) = Returned no_content
    /\ status_of (fst (webhook_handler E r w)) = 204
    /\ events_store (snd (webhook_handler E r w)) = events_store w ++ [record]
    /\ forall (between : list Webhook.request) (r' : Webhook.request),
        let w' := snd (serve E between (snd (webhook_handler E r w))) in
        Webhook.x_github_delivery r' = None ->
        fst (verify_signature E (Webhook.x_hub_signature_256 r')
               (Webhook.body r') w') = Returned true ->
        member (Webhook.x_github_event r') ["issues"; "issue_comment"; "ping"]
        = true ->
        (exists payload, json_loads E (Webhook.body r') = Some payload) ->
        status_of (fst (webhook_handler E r' w')) = 204
        /\ events_store (snd (webhook_handler E r' w')) = events_store w'.
Proof.
  intros Hid Hv Hev Hjs Hissue Hrepo Hfresh.
  assert (Hseen : existsb (fun e => option_eqb (Event.id e)
                                      (Webhook.x_github_delivery r))
                    (events_store w) = false)
    by (apply not_seen_In; rewrite Hid; exact Hfresh).
  pose proof (webhook_fresh E r w d issue repository Hv Hev Hjs Hseen
                Hissue Hrepo) as Hrun.
  cbv zeta in Hrun. rewrite Hrun. cbn [fst snd events_store].
  eexists. split; [|split; [reflexivity|split; [reflexivity|split;
                                                  [reflexivity|]]]].
  - cbn [Event.id]. exact Hid.
  - intros between r'.
    match goal with
    | |- context [serve E between ?w0] => set (w' := snd (serve E between w0))
    end.
    intros Hid' Hv' Hev' (payload & Hjs').
    assert (Hin : In (Webhook.x_github_delivery r') (ids w')).
    { apply serve_keeps. unfold ids. cbn [events_store].
      rewrite map_app. apply in_or_app; right. cbn [map Event.id].
      left. rewrite Hid, Hid'. reflexivity. }
    apply seen_In in Hin.
    rewrite (webhook_duplicate E r' w' payload Hv' Hev' Hjs' Hin).
    cbn [fst snd]. split; [reflexivity|apply verify_signature_store].
Qed.

(** ** PATCH /issues/{number} *)

(** C6: a [state] that is present and is neither [open] nor [closed] is
    answered 400, and the world is left as it was: no call to the upstream
    tracker has been made. *)
Theorem invalid_state_rejected (E : env) (number : Z) (issue : IssueUpdate.t)
        (w : world) (v : option string) :
  IssueUpdate.state issue = Some v ->
  v <> Some "open" -> v <> Some "closed" ->
  update_issue E number issue w
  = (HTTPException 400 "state must be 'open' or 'closed'", w)
  /\ status_of (fst (update_issue E number issue w)) = 400
  /\ effects (snd (update_issue E number issue w)) = effects w.
Proof.
  intros Hstate Hopen Hclosed.
  assert (Hlook : lookup "state" (dict_exclude_unset issue) = Some v).
  { unfold dict_exclude_unset. rewrite Hstate.
    destruct (IssueUpdate.title issue), (IssueUpdate.body issue); reflexivity. }
  assert (Hmem : member v ["open"; "closed"] = false).
  { destruct v as [s|]; [|reflexivity]. cbn [member existsb].
    destruct (String.eqb_spec s "open") as [->|_];
      [exfalso; apply Hopen; reflexivity|].
    destruct (String.eqb_spec s "closed") as [->|_];
      [exfalso; apply Hclosed; reflexivity|reflexivity]. }
  assert (Hrun : update_issue E number issue w
                 = (HTTPException 400 "state must be 'open' or 'closed'", w)).
  { unfold update_issue. rewrite Hlook, Hmem. reflexivity. }
  rewrite Hrun. repeat split.
Qed.

(** ** GET /events *)

Lemma get_events_run (limit : option Z) (w : world) :
  get_events limit w
  = (Returned (slice_from (- match limit with Some n => n | None => 10 end)
                 (events_store w)), w).
Proof. reflexivity. Qed.

(** C3, as amended: for [1 <= n <= size] the [n] last records are
    returned, in arrival order; a limit above the size returns the whole
    store; a negative limit [-k] is not clamped, it returns the store
    without its [k] first records; the default limit is 10.  No case
    raises or touches the store. *)
Theorem recent_events (w : world) :
  let store := events_store w in
  let size := Z.of_nat (List.length store) in
  (forall n, 1 <= n <= size ->
     get_events (Some n) w = (Returned (skipn (Z.to_nat (size - n)) store), w)
     /\ Z.of_nat (List.length (skipn (Z.to_nat (size - n)) store)) = n)
  /\ (forall n, size < n -> get_events (Some n) w = (Returned store, w))
  /\ (forall k, 0 < k ->
        get_events (Some (- k)) w = (Returned (skipn (Z.to_nat k) store), w))
  /\ get_events None w = get_events (Some 10) w.
Proof.
  intros store size. repeat split.
  - rewrite get_events_run. unfold slice_from. fold store; fold size.
    destruct (Z.ltb_spec (- n) 0); [|lia].
    rewrite Z.max_l by lia. do 3 f_equal. lia.
  - rewrite length_skipn. fold size. lia.
  - intros n Hn. rewrite get_events_run. unfold slice_from.
    fold store; fold size.
    destruct (Z.ltb_spec (- n) 0); [|lia].
    rewrite Z.max_r by lia. reflexivity.
  - intros k Hk. rewrite get_events_run. unfold slice_from.
    fold store; fold size. rewrite Z.opp_involutive.
    destruct (Z.ltb_spec k 0); [lia|].
    destruct (Z.min_spec k size) as [(Hlt & ->)|(Hge & ->)]; [reflexivity|].
    rewrite !skipn_all2; [reflexivity| |]; unfold size in *; lia.
Qed.

(** ** POST /issues *)


Lemma for_each_names (items names : list json) (w : world) :
  labelled items names ->
  for_each (fun label => getitem label "name") items w = (Returned names, w).
Proof.
  induction 1 as [|label name items names (fields & -> & Hname) _ IH];
    [reflexivity|].
  cbn [for_each]. run. rewrite getitem_run, Hname. run. rewrite IH.
  reflexivity.
Qed.

Lemma latin1_cons (c : ascii) (s : string) :
  latin1_encodable (String c s)
  = (byte_val (byte_of_ascii c) <? 0xC4) && latin1_encodable s.
Proof. reflexivity. Qed.

Lemma latin1_append (a b : string) :
  latin1_encodable (a +++ b) = latin1_encodable a && latin1_encodable b.
Proof.
  induction a as [|c a IH]; [reflexivity|].
  cbn [String.append]. rewrite !latin1_cons, IH, andb_assoc. reflexivity.
Qed.

(** The text of an integer is digits, with a sign. *)
Lemma latin1_decimal (n : Z) : latin1_encodable (decimal n) = true.
Proof.
  assert (Hu : forall u, latin1_encodable (NilEmpty.string_of_uint u) = true).
  { induction u; cbn [NilEmpty.string_of_uint]; try reflexivity;
      rewrite latin1_cons, IHu; reflexivity. }
  unfold decimal. destruct (Z.to_int n) as [u|u];
    cbn [NilEmpty.string_of_int]; [apply Hu|].
  rewrite latin1_cons, Hu. reflexivity.
Qed.

Lemma set_header_run (headers : list (string * string)) (k value : string)
      (w : world) :
  set_header headers k value w
  = (if latin1_encodable value then Returned (headers ++ [(k, value)])
     else Raised UnicodeEncodeError, w).
Proof.
  unfold set_header. destruct (latin1_encodable value); reflexivity.
Qed.

Section CreateIssue.

Variable E : env.
Variable issue : IssueCreate.t.
Variable w : world.

Let request : Upstream.request :=
  Upstream.mk_request "POST" (issues_url E) (HEADERS E) (create_payload issue).
Let r : Upstream.response := upstream E request.
Let w' : world := mkWorld (events_store w) (effects w ++ [UpstreamCalled request]).

Lemma create_issue_unauthorized :
  Upstream.status_code r = 401 ->
  create_issue E issue w = (HTTPException 401 "Unauthorized", w').
Proof.
  intros Hs. unfold create_issue, call_upstream. run.
  fold request; fold r. rewrite Hs. reflexivity.
Qed.

Lemma create_issue_other :
  Upstream.status_code r <> 201 -> Upstream.status_code r <> 401 ->
  create_issue E issue w = (HTTPException 400 (Upstream.text r), w').
Proof.
  intros H201 H401. unfold create_issue, call_upstream. run.
  fold request; fold r.
  destruct (Z.eqb_spec (Upstream.status_code r) 201); [contradiction|].
  destruct (Z.eqb_spec (Upstream.status_code r) 401); [contradiction|].
  reflexivity.
Qed.

Lemma create_issue_created
      (d : list (string * json)) (items names : list json)
      (number title state html_url created_at updated_at : json) :
  Upstream.status_code r = 201 ->
  json_loads E (encode (Upstream.text r)) = Some (JObj d) ->
  lookup "number" d = Some number ->
  latin1_encodable ("/issues/" +++ str E number) = true ->
  lookup "title" d = Some title ->
  lookup "state" d = Some state ->
  match lookup "labels" d with Some x => x | None => JArr [] end
  = JArr items ->
  labelled items names ->
  lookup "html_url" d = Some html_url ->
  lookup "created_at" d = Some created_at ->
  lookup "updated_at" d = Some updated_at ->
  create_issue E issue w
  = (Returned
       (Response.mk 201
          [("Location", "/issues/" +++ str E number)]
          (Some (JObj [ ("number", number);
                        ("title", title);
                        ("body", match lookup "body" d with
                                 | Some x => x
                                 | None => JNull
                                 end);
                        ("state", state);
                        ("labels", JArr names);
                        ("html_url", html_url);
                        ("created_at", created_at);
                        ("updated_at", updated_at) ]))), w').
Proof.
  intros Hs Hjs Hnumber Hlocation Htitle Hstate Hlabels Hnames Hurl Hcreated
         Hupdated.
  unfold create_issue, call_upstream, response_json, extract_labels. run.
  fold request; fold r. rewrite Hs. cbn [Z.eqb Pos.eqb]. rewrite Hjs. run.
  repeat (progress
            (rewrite ?getitem_run, ?get_run, ?iterate_run, ?set_header_run,
               ?Hnumber, ?Hlocation,
               ?Htitle, ?Hstate, ?Hlabels, ?Hurl, ?Hcreated, ?Hupdated,
               ?(for_each_names items names _ Hnames); run)).
  reflexivity.
Qed.

(** Whatever is returned was built from an upstream 201. *)
Lemma create_issue_returned (response : Response.t) (w1 : world) :
  create_issue E issue w = (Returned response, w1) ->
  Upstream.status_code r = 201 /\ Response.status_code response = 201.
Proof.
  unfold create_issue, call_upstream, response_json, extract_labels. run.
  fold request; fold r.
  destruct (Z.eqb_spec (Upstream.status_code r) 201) as [Hs|_].
  - intros Hrun. split; [exact Hs|]. revert Hrun.
    destruct (json_loads E (encode (Upstream.text r))) as [data|]; run;
      [|intros H; discriminate H].
    rewrite ?getitem_run, ?get_run, ?iterate_run. run.
    repeat (split_match;
            rewrite ?getitem_run, ?get_run, ?iterate_run; run;
            try (intros H; discriminate H)).
    all: intros [= <- _]; reflexivity.
  - destruct (Upstream.status_code r =? 401); intros H; discriminate H.
Qed.

End CreateIssue.

(** C7, as amended: for POST /issues an upstream 201 carrying an issue
    object, its number an integer, gives a local 201 with the translated
    body; an upstream 401 gives a local 401; every other upstream status,
    other 2xx included, gives a local 400 whose detail is the raw upstream
    body. *)
Theorem create_issue_mapping (E : env) (issue : IssueCreate.t) (w : world) :
  let r := upstream E (Upstream.mk_request "POST" (issues_url E) (HEADERS E)
                         (create_payload issue)) in
  (forall (d : list (string * json)) (items names : list json) (N : Z)
          (title state html_url created_at updated_at : json),
      Upstream.status_code r = 201 ->
      json_loads E (encode (Upstream.text r)) = Some (JObj d) ->
      lookup "number" d = Some (JInt N) ->
      lookup "title" d = Some title ->
      lookup "state" d = Some state ->
      match lookup "labels" d with Some x => x | None => JArr [] end
      = JArr items ->
      labelled items names ->
      lookup "html_url" d = Some html_url ->
      lookup "created_at" d = Some created_at ->
      lookup "updated_at" d = Some updated_at ->
      exists response,
        fst (create_issue E issue w) = Returned response
        /\ Response.status_code response = 201
        /\ Response.content response
           = Some (JObj [ ("number", JInt N);
                          ("title", title);
                          ("body", match lookup "body" d with
                                   | Some x => x
                                   | None => JNull
                                   end);
                          ("state", state);
                          ("labels", JArr names);
                          ("html_url", html_url);
                          ("created_at", created_at);
                          ("updated_at", updated_at) ]))
  /\ (Upstream.status_code r = 401 ->
      fst (create_issue E issue w) = HTTPException 401 "Unauthorized")
  /\ (Upstream.status_code r <> 201 -> Upstream.status_code r <> 401 ->
      fst (create_issue E issue w) = HTTPException 400 (Upstream.text r)).
Proof.
  intros r. split; [|split].
  - intros d items names N title state html_url created_at updated_at
           Hs Hjs Hnumber Htitle Hstate Hlabels Hnames Hurl Hcreated Hupdated.
    assert (Hlocation : latin1_encodable ("/issues/" +++ str E (JInt N)) = true)
      by (cbn [str]; rewrite latin1_append, latin1_decimal; reflexivity).
    rewrite (create_issue_created E issue w d items names (JInt N) title state
               html_url created_at updated_at Hs Hjs Hnumber Hlocation Htitle
               Hstate Hlabels Hnames Hurl Hcreated Hupdated).
    eexists. split; [reflexivity|]. split; reflexivity.
  - intros Hs. rewrite (create_issue_unauthorized E issue w Hs). reflexivity.
  - intros H201 H401. rewrite (create_issue_other E issue w H201 H401).
    reflexivity.
Qed.

(** C7, as stated, fails: an upstream 404 is answered 400, not 404, and
    an upstream 200 is answered 400, not success. *)
Lemma create_issue_not_passthrough :
  let missing := deployment (Upstream.mk_response 404 "Not Found") in
  let plain := deployment (Upstream.mk_response 200 issue_text) in
  fst (create_issue missing bug initial) = HTTPException 400 "Not Found"
  /\ status_of (fst (create_issue missing bug initial)) <> 404
  /\ fst (create_issue plain bug initial) = HTTPException 400 issue_text
  /\ forall response, fst (create_issue plain bug initial) <> Returned response.
Proof.
  repeat split; try reflexivity; intros; intros H; discriminate H.
Qed.

(** C9: when the upstream tracker answers 201 with an issue object whose
    number is [N], POST /issues answers 201, with the Location header
    [/issues/N] and a body whose [number] is [N]. *)
Theorem created_issue_location (E : env) (issue : IssueCreate.t) (w : world)
        (d : list (string * json)) (items names : list json) (N : Z)
        (title state html_url created_at updated_at : json) :
  let r := upstream E (Upstream.mk_request "POST" (issues_url E) (HEADERS E)
                         (create_payload issue)) in
  Upstream.status_code r = 201 ->
  json_loads E (encode (Upstream.text r)) = Some (JObj d) ->
  lookup "number" d = Some (JInt N) ->
  lookup "title" d = Some title ->
  lookup "state" d = Some state ->
  match lookup "labels" d with Some x => x | None => JArr [] end = JArr items ->
  labelled items names ->
  lookup "html_url" d = Some html_url ->
  lookup "created_at" d = Some created_at ->
  lookup "updated_at" d = Some updated_at ->
  exists response fields,
    fst (create_issue E issue w) = Returned response
    /\ status_of (fst (create_issue E issue w)) = 201
    /\ lookup "Location" (Response.headers response)
       = Some ("/issues/" +++ decimal N)
    /\ Response.content response = Some (JObj fields)
    /\ lookup "number" fields = Some (JInt N).
Proof.
  intros r Hs Hjs Hnumber Htitle Hstate Hlabels Hnames Hurl Hcreated Hupdated.
  assert (Hlocation : latin1_encodable ("/issues/" +++ str E (JInt N)) = true)
    by (cbn [str]; rewrite latin1_append, latin1_decimal; reflexivity).
  rewrite (create_issue_created E issue w d items names (JInt N) title state
             html_url created_at updated_at Hs Hjs Hnumber Hlocation Htitle
             Hstate Hlabels Hnames Hurl Hcreated Hupdated).
  do 2 eexists. repeat split; reflexivity.
Qed.

(** C3, as stated, fails: with two records stored, limit 0 returns both of
    them, and limit -1 returns the last one, neither an empty list. *)
Lemma limit_zero_returns_all :
  let w := mkWorld [opened "a1"; opened "a2"] [] in
  fst (get_events (Some 0) w) = Returned [opened "a1"; opened "a2"]
  /\ fst (get_events (Some 0) w) <> Returned []
  /\ fst (get_events (Some (-1)) w) = Returned [opened "a2"]
  /\ fst (get_events (Some (-1)) w) <> Returned [].
Proof.
  repeat split; try reflexivity; intros H; discriminate H.
Qed.

(** ** The statements at concrete inputs *)

Lemma delivery_ids_unique_witness :
  let w1 := snd (serve quiet [] initial) in
  let first := webhook_handler quiet ping w1 in
  let w2 := snd (serve quiet [] (snd first)) in
  let second := webhook_handler quiet ping w2 in
  status_of (fst first) = 204
  /\ status_of (fst second) = 204
  /\ events_store (snd second) = events_store w2
  /\ List.length (stored (Webhook.x_github_delivery ping) (snd second))
     = 1%nat.
Proof.
  intros w1 first w2 second.
  assert (H204 : status_of (fst first) = 204) by (vm_compute; reflexivity).
  split; [exact H204|].
  exact (proj2 (proj2 (delivery_ids_unique quiet [] [] ping)) H204).
Defined.


Lemma recent_events_witness :
  get_events (Some 2) (mkWorld [opened "a1"; opened "a2"; opened "a3"] [])
  = (Returned [opened "a2"; opened "a3"],
     mkWorld [opened "a1"; opened "a2"; opened "a3"] []).
Proof.
  destruct (recent_events
              (mkWorld [opened "a1"; opened "a2"; opened "a3"] []))
    as (Hlast & _).
  refine (proj1 (Hlast 2 _)). vm_compute. split; intros H; discriminate H.
Defined.

Lemma unsupported_event_rejected_witness :
  status_of (fst (webhook_handler quiet push initial)) = 400
  /\ events_store (snd (webhook_handler quiet push initial)) = [].
Proof.
  destruct (unsupported_event_rejected quiet push initial)
    as (_ & Hstatus & Hstore); try (vm_compute; reflexivity).
  split; [exact Hstatus|exact Hstore].
Defined.

Lemma signature_checked_first_witness :
  status_of (fst (webhook_handler quiet tampered initial)) = 401.
Proof.
  destruct (signature_checked_first quiet tampered initial) as (Hfirst & _).
  destruct Hfirst as (_ & Hstatus & _); [vm_compute; reflexivity|].
  exact Hstatus.
Defined.

Lemma invalid_state_rejected_witness :
  update_issue quiet 5 archive initial
  = (HTTPException 400 "state must be 'open' or 'closed'", initial).
Proof.
  refine (proj1 (invalid_state_rejected quiet 5 archive initial
                   (Some "archived") _ _ _)).
  - reflexivity.
  - intros H; discriminate H.
  - intros H; discriminate H.
Defined.

Lemma create_issue_mapping_witness :
  fst (create_issue (deployment (Upstream.mk_response 503 "Unavailable")) bug
         initial)
  = HTTPException 400 "Unavailable".
Proof.
  destruct (create_issue_mapping
              (deployment (Upstream.mk_response 503 "Unavailable")) bug initial)
    as (_ & _ & Hother).
  apply Hother; vm_compute; intros H; discriminate H.
Defined.

Lemma absent_signature_rejected_witness :
  webhook_handler quiet unsigned initial
  = (HTTPException 401 "Invalid signature", initial).
Proof.
  destruct (absent_signature_rejected quiet unsigned initial)
    as (_ & Hrun & _); [left; reflexivity|exact Hrun].
Defined.

Lemma created_issue_location_witness :
  exists response fields,
    fst (create_issue (deployment (Upstream.mk_response 201 issue_text)) bug
           initial) = Returned response
    /\ status_of (fst (create_issue
                         (deployment (Upstream.mk_response 201 issue_text))
                         bug initial)) = 201
    /\ lookup "Location" (Response.headers response) = Some "/issues/42"
    /\ Response.content response = Some (JObj fields)
    /\ lookup "number" fields = Some (JInt 42).
Proof.
  apply (created_issue_location
           (deployment (Upstream.mk_response 201 issue_text)) bug initial
           issue_fields [JObj [("name", JStr "defect")]] [JStr "defect"] 42
           (JStr "bug") (JStr "open")
           (JStr "https://github.com/octocat/hello/issues/42")
           (JStr "2024-05-01T10:00:00Z") (JStr "2024-05-01T10:00:00Z"));
    try (vm_compute; reflexivity).
  constructor; [|constructor].
  exists [("name", JStr "defect")]. split; reflexivity.
Defined.

Lemma missing_delivery_id_witness :
  let w' := snd (serve quiet [] (snd (webhook_handler quiet anonymous_ping
                                        initial))) in
  status_of (fst (webhook_handler quiet anonymous_ping initial)) = 204
  /\ status_of (fst (webhook_handler quiet anonymous_ping w')) = 204
  /\ events_store (snd (webhook_handler quiet anonymous_ping w'))
     = events_store w'.
Proof.
  intros w'.
  destruct (missing_delivery_id quiet anonymous_ping initial [] [] [])
    as (record & _ & _ & Hfirst & _ & Hlater).
  - reflexivity.
  - vm_compute; reflexivity.
  - reflexivity.
  - reflexivity.
  - reflexivity.
  - reflexivity.
  - intros H; exact H.
  - split; [exact Hfirst|].
    apply (Hlater [] anonymous_ping).
    + reflexivity.
    + vm_compute; reflexivity.
    + reflexivity.
    + exists (JObj []). reflexivity.
Defined.

(** ** Where the verifier raises *)

(** A claimed signature holding a character outside ASCII makes
    [hmac.compare_digest] raise: with the secret configured the request is
    answered 500, after the HMAC was computed, and nothing is stored. *)
Lemma non_ascii_signature (E : env) (S claimed : string)
      (r : Webhook.request) (w : world) :
  WEBHOOK_SECRET E = Some S ->
  Webhook.x_hub_signature_256 r = Some claimed ->
  is_ascii claimed = false ->
  webhook_handler E r w
  = (Raised TypeError,
     mkWorld (events_store w)
             (effects w ++ [HmacComputed (encode S) (Webhook.body r)])).
Proof.
  intros HS Hsig Hascii.
  rewrite (webhook_raised E r w TypeError);
    rewrite verify_signature_eq, Hsig, HS;
    (destruct claimed as [|c s]; [discriminate Hascii|]);
    cbv zeta; rewrite Hascii; reflexivity.
Qed.

(** C5, on the code: a request whose signature is [sha256=] followed by a
    letter outside ASCII does not verify, yet it is not answered 401: the
    comparison raises [TypeError] and the answer is 500. *)
Theorem garbled_signature_answered_500 :
  fst (verify_signature quiet (Webhook.x_hub_signature_256 garbled)
         (Webhook.body garbled) initial) = Raised TypeError
  /\ fst (webhook_handler quiet garbled initial) = Raised TypeError
  /\ status_of (fst (webhook_handler quiet garbled initial)) = 500
  /\ status_of (fst (webhook_handler quiet garbled initial)) <> 401.
Proof.
  assert (Hrun : webhook_handler quiet garbled initial
                 = (Raised TypeError,
                    mkWorld []
                      [HmacComputed (encode "secret") (encode "{}")]))
    by (apply (non_ascii_signature quiet "secret"
                 ("sha256=" +++ String "195"%char
                                  (String "169"%char EmptyString))
                 garbled initial);
        reflexivity).
  split; [|rewrite Hrun; repeat split; intros H; discriminate H].
  rewrite verify_signature_eq. reflexivity.
Qed.

(** ** Where the Location header cannot be set *)

(** An upstream 201 whose [number] has a text outside Latin-1 makes
    [response.headers] raise: the request is answered 500, after the
    upstream call. *)
Lemma create_issue_location_refused (E : env) (issue : IssueCreate.t)
      (w : world) (d : list (string * json)) (number : json) :
  let request :=
    Upstream.mk_request "POST" (issues_url E) (HEADERS E)
      (create_payload issue) in
  Upstream.status_code (upstream E request) = 201 ->
  json_loads E (encode (Upstream.text (upstream E request))) = Some (JObj d) ->
  lookup "number" d = Some number ->
  latin1_encodable ("/issues/" +++ str E number) = false ->
  create_issue E issue w
  = (Raised UnicodeEncodeError,
     mkWorld (events_store w) (effects w ++ [UpstreamCalled request])).
Proof.
  intros request Hs Hjs Hnumber Hlocation.
  unfold create_issue, call_upstream, response_json. run.
  fold request. rewrite Hs. cbn [Z.eqb Pos.eqb]. rewrite Hjs. run.
  rewrite getitem_run, Hnumber. run.
  rewrite set_header_run, Hlocation. reflexivity.
Qed.
